(** * A shallow embedding of [tplink_cloud_api.py] (class [TPLink])

    Python values that the client handles (requests, responses, device
    records) are JSON-like values: [json] below.  Dictionary literals are
    association lists in insertion order, which is also Python's iteration
    order.  The methods of [TPLink] run in a state/exception monad whose
    state holds the client object's attributes, a trace of the observable
    effects (requests put on the wire, [time.sleep] calls) and the scripted
    transport (a mock server answering the requests in order). *)

From Stdlib Require Import String List ZArith Bool Lia.
Import ListNotations.
Open Scope string_scope.

Set Warnings "-register-all".

(** ** Python values *)

Inductive json : Type :=
| JNull : json
| JBool (b : bool) : json
| JInt (z : Z) : json
| JStr (s : string) : json
| JList (l : list json) : json
| JObj (kvs : list (string * json)) : json.

(** Python exceptions raised on the paths we model. *)
Inductive exc : Type :=
| KeyError (k : string)          (* d[k] with k missing *)
| TypeError                      (* subscript / concatenation on a wrong type *)
| RuntimeError (msg : string)    (* raise RuntimeError(...) *)
| URLError                       (* urlopen raises: DNS, TLS, refused, ... *)
| JSONDecodeError.               (* json.loads on a non-JSON body *)

(** Python truthiness, [if x:] / [if not x:]. *)
Definition truthy (j : json) : bool :=
  match j with
  | JNull => false
  | JBool b => b
  | JInt z => negb (Z.eqb z 0)
  | JStr s => negb (String.eqb s "")
  | JList l => match l with [] => false | _ => true end
  | JObj kvs => match kvs with [] => false | _ => true end
  end.

(** Python [j == n] for an int [n] ([True == 1] holds in Python). *)
Definition py_eq_int (j : json) (n : Z) : bool :=
  match j with
  | JInt z => Z.eqb z n
  | JBool b => Z.eqb (if b then 1 else 0) n
  | _ => false
  end.

(** Python [j == s] for a str [s]. *)
Definition py_eq_str (j : json) (s : string) : bool :=
  match j with
  | JStr t => String.eqb t s
  | _ => false
  end.

Fixpoint assoc (k : string) (kvs : list (string * json)) : option json :=
  match kvs with
  | [] => None
  | (k', v) :: rest => if String.eqb k k' then Some v else assoc k rest
  end.

(** ** The client's state and the monad *)

Record client : Type := mkClient {
  username : string;
  password : string;
  token : json;
  device_list : json   (* [JNull] is Python's [None] *)
}.

(** What the mock transport answers to one [urlopen]. *)
Inductive reply : Type :=
| RBody (raw : string) (parsed : json)  (* a body [raw] that parses to [parsed] *)
| RGarbage (raw : string)               (* a body that is not JSON *)
| RNull                                 (* a falsy response object *)
| RFail.                                (* urlopen raises *)

(** Observable effects, in order. *)
Inductive event : Type :=
| Send (url : string) (request : json)
| Sleep (secs : Z).

Record st : Type := mkSt {
  cl : client;
  trace : list event;
  script : list reply
}.

Inductive result (A : Type) : Type :=
| Ok (a : A)
| Err (e : exc).
Arguments Ok {A} a.
Arguments Err {A} e.

Definition M (A : Type) : Type := st -> result A * st.

Definition ret {A} (a : A) : M A := fun s => (Ok a, s).
Definition raise {A} (e : exc) : M A := fun s => (Err e, s).
Definition bind {A B} (m : M A) (f : A -> M B) : M B :=
  fun s => match m s with
           | (Ok a, s') => f a s'
           | (Err e, s') => (Err e, s')
           end.

Notation "x <- m ;; k" := (bind m (fun x => k))
  (at level 61, m at next level, right associativity).
Notation "m ;;; k" := (bind m (fun _ => k))
  (at level 61, right associativity).

Definition get_client : M client := fun s => (Ok (cl s), s).
Definition put_client (c : client) : M unit :=
  fun s => (Ok tt, mkSt c (trace s) (script s)).
Definition emit (ev : event) : M unit :=
  fun s => (Ok tt, mkSt (cl s) (trace s ++ [ev]) (script s)).
(** The transport consumes the next scripted reply; past the end of the
    script the server is unreachable. *)
Definition next_reply : M reply :=
  fun s => match script s with
           | [] => (Ok RFail, s)
           | r :: rest => (Ok r, mkSt (cl s) (trace s) rest)
           end.

Definition lift {A} (r : result A) : M A :=
  match r with Ok a => ret a | Err e => raise e end.

(** [d[k]] on a dict. *)
Definition getitem (d : json) (k : string) : result json :=
  match d with
  | JObj kvs => match assoc k kvs with
                | Some v => Ok v
                | None => Err (KeyError k)
                end
  | _ => Err TypeError
  end.

(** [a + b] where [b] is a str. *)
Definition str_add (a : json) (b : string) : result string :=
  match a with
  | JStr s => Ok (s ++ b)
  | _ => Err TypeError
  end.

(** [s[:-1]] *)
Definition drop_last (s : string) : string :=
  substring 0 (String.length s - 1) s.

(** ** [TPLink.form_url] *)

Fixpoint add_params (params : list (string * json)) (keys : list string)
    (url : string) : result string :=
  match keys with
  | [] => Ok url
  | param :: rest =>
      match assoc param params with
      | Some (JStr v) => add_params params rest (url ++ param ++ "=" ++ v ++ "&")
      | Some _ => Err TypeError
      | None => Err (KeyError param)
      end
  end.

Definition form_url (request : json) : result string :=
  match getitem request "url" with
  | Err e => Err e
  | Ok u =>
      match str_add u "?" with
      | Err e => Err e
      | Ok url =>
          match getitem request "params" with
          | Ok (JObj params) =>
              match add_params params (map fst params) url with
              | Ok url' => Ok (drop_last url')
              | Err e => Err e
              end
          | Ok _ => Err TypeError
          | Err e => Err e
          end
      end
  end.

(** ** [TPLink.send_request] *)

Definition send_request (request : json) : M json :=
  url <- lift (form_url request) ;;
  emit (Send url request) ;;;
  r <- next_reply ;;
  match r with
  | RFail => raise URLError
  | RNull => ret (JObj [("error", JStr "Null response from server")])
  | RGarbage _ => raise JSONDecodeError
  | RBody response_data json_response =>
      ec <- lift (getitem json_response "error_code") ;;
      if negb (py_eq_int ec 0)
      then ret (JObj [("error", JStr response_data)])
      else lift (getitem json_response "result")
  end.

(** ** Request dictionaries built by the methods *)

Definition user_agent : string :=
  "Dalvik/2.1.0 (Linux; U; Android 6.0.1; A0001 Build/M4B30X)".

Definition base_params : list (string * json) :=
  [("appName", JStr "Kasa_Android"); ("termID", JStr "TermID");
   ("appVer", JStr "1.4.4.607"); ("ospf", JStr "Android+6.0.1");
   ("netType", JStr "wifi"); ("locale", JStr "es_ES")].

Definition login_request (username password : string) : json :=
  JObj [("method", JStr "POST");
        ("url", JStr "https://wap.tplinkcloud.com");
        ("params", JObj base_params);
        ("data", JObj [("method", JStr "login");
                       ("url", JStr "https://wap.tplinkcloud.com");
                       ("params", JObj [("appType", JStr "Kasa_Android");
                                        ("cloudPassword", JStr password);
                                        ("cloudUserName", JStr username);
                                        ("terminalUUID", JStr "TermID")])]);
        ("headers", JObj [("User-Agent", JStr user_agent);
                          ("Content-Type", JStr "application/json")])].

Definition device_list_request (tok : json) : json :=
  JObj [("method", JStr "POST");
        ("url", JStr "https://wap.tplinkcloud.com");
        ("params", JObj (base_params ++ [("token", tok)]));
        ("headers", JObj [("User-Agent", JStr user_agent);
                          ("Content-Type", JStr "application/json")]);
        ("data", JObj [("method", JStr "getDeviceList")])].

(** The passthrough envelope shared by [set_relay_state] and [get_sys_info]. *)
Definition passthrough_request (url tok device_id request_data : json) : json :=
  JObj [("method", JStr "POST");
        ("url", url);
        ("params", JObj (base_params ++ [("token", tok)]));
        ("headers", JObj [("cache-control", JStr "no-cache");
                          ("User-Agent", JStr user_agent);
                          ("Content-Type", JStr "application/json")]);
        ("data", JObj [("method", JStr "passthrough");
                       ("params", JObj [("deviceId", device_id);
                                        ("requestData", request_data)])])].

Definition relay_state_data (state : Z) : json :=
  JObj [("system", JObj [("set_relay_state", JObj [("state", JInt state)])])].

Definition sysinfo_data : json :=
  JObj [("system", JObj [("get_sysinfo", JNull)]);
        ("emeter", JObj [("get_realtime", JNull)])].

(** ** The methods of [TPLink] *)

(** [get_device_list]: the cache test is Python truthiness of
    [self.device_list]. *)
Definition get_device_list : M json :=
  c <- get_client ;;
  if truthy (device_list c) then ret (device_list c) else
  result <- send_request (device_list_request (token c)) ;;
  dl <- lift (getitem result "deviceList") ;;
  c' <- get_client ;;
  put_client (mkClient (username c') (password c') (token c') dl) ;;;
  ret dl.

(** [__init__]: the attributes are set one after the other; [token] and
    [device_list] hold [JNull] until assigned (no code reads them before). *)
Definition init_body : M unit :=
  c <- get_client ;;
  result <- send_request (login_request (username c) (password c)) ;;
  tok <- lift (getitem result "token") ;;
  put_client (mkClient (username c) (password c) tok JNull) ;;;
  dl <- get_device_list ;;
  c' <- get_client ;;
  put_client (mkClient (username c') (password c') (token c') dl).

Definition fresh_client (u p : string) : client := mkClient u p JNull JNull.

(** [TPLink(username, password)] against the mock transport [sc]. *)
Definition construct (u p : string) (sc : list reply) : result unit * st :=
  init_body (mkSt (fresh_client u p) [] sc).

(** [for device in self.device_list: if device['alias'] == alias: return device]
    then [return None]. *)
Fixpoint scan (alias : string) (devices : list json) : result (option json) :=
  match devices with
  | [] => Ok None
  | device :: rest =>
      match getitem device "alias" with
      | Err e => Err e
      | Ok a => if py_eq_str a alias then Ok (Some device) else scan alias rest
      end
  end.

Definition get_device (alias : string) : M (option json) :=
  c <- get_client ;;
  match device_list c with
  | JList devices => lift (scan alias devices)
  | _ => raise TypeError
  end.

(** [device = self.get_device(alias); if not device: raise RuntimeError(...)] *)
Definition resolve (alias : string) : M json :=
  d <- get_device alias ;;
  match d with
  | Some device => if truthy device then ret device
                   else raise (RuntimeError ("Cannot find device: " ++ alias))
  | None => raise (RuntimeError ("Cannot find device: " ++ alias))
  end.

Definition set_relay_state (alias : string) (state : Z) : M json :=
  device <- resolve alias ;;
  c <- get_client ;;
  url <- lift (getitem device "appServerUrl") ;;
  did <- lift (getitem device "deviceId") ;;
  result <- send_request
              (passthrough_request url (token c) did (relay_state_data state)) ;;
  lift (getitem result "responseData").

Definition turn_on (alias : string) : M json := set_relay_state alias 1.

Definition turn_off (alias : string) : M json := set_relay_state alias 0.

Definition powercycle (alias : string) : M string :=
  turn_off alias ;;;
  emit (Sleep 5) ;;;
  turn_on alias ;;;
  ret "Done".

Definition get_sys_info (alias : string) : M json :=
  device <- resolve alias ;;
  c <- get_client ;;
  url <- lift (getitem device "appServerUrl") ;;
  did <- lift (getitem device "deviceId") ;;
  result <- send_request (passthrough_request url (token c) did sysinfo_data) ;;
  lift (getitem result "responseData").

Definition is_on (alias : string) : M bool :=
  state <- get_sys_info alias ;;
  sys <- lift (getitem state "system") ;;
  info <- lift (getitem sys "get_sysinfo") ;;
  rs <- lift (getitem info "relay_state") ;;
  ret (py_eq_int rs 1).

Definition is_off (alias : string) : M bool :=
  b <- is_on alias ;;
  ret (negb b).

(** ** [main()]: the command-line driver

    [argparse] is an external collaborator: it hands [main] a namespace in
    which [command] is one of the declared [choices], so the command is an
    enumeration here and the unreachable [else] branch (which reads the
    misspelt [args.commmand]) is not modelled.  What [main] prints and the
    argument of [sys.exit] form its outcome; an exception other than
    [RuntimeError] escapes [main] uncaught. *)

Inductive device_command : Type :=
| CTurnOn | CTurnOff | CPowercycle | CSysinfo | CIsOn | CIsOff.

Inductive command : Type :=
| CList
| CDevice (dc : device_command).

Record cli_args : Type := mkArgs {
  a_command : command;
  a_device : option string;     (* --device, [None] when absent *)
  a_username : string;
  a_password : string;
  a_verbose : option string
}.

(** One printed line: [pp.pprint(result)] on stdout, or
    [print(..., file=sys.stderr)]. *)
Inductive line : Type :=
| Out (v : json)
| ErrOut (msg : string).

Inductive outcome : Type :=
| Exit (out : list line) (code : Z)
| Uncaught (out : list line) (e : exc).

(** The [if/elif] chain inside the [try]; the value is what is passed to
    [pp.pprint] (a str or bool result as [JStr] / [JBool]). *)
Definition run_command (dc : device_command) (dev : string) : M json :=
  match dc with
  | CTurnOff => turn_off dev
  | CTurnOn => turn_on dev
  | CPowercycle => r <- powercycle dev ;; ret (JStr r)
  | CSysinfo => get_sys_info dev
  | CIsOn => b <- is_on dev ;; ret (JBool b)
  | CIsOff => b <- is_off dev ;; ret (JBool b)
  end.

Definition main_run (args : cli_args) (sc : list reply) : outcome * st :=
  match construct (a_username args) (a_password args) sc with
  | (Err e, s) => (Uncaught [] e, s)
  | (Ok _, s) =>
      match a_command args with
      | CList =>
          (* devices = None; try: device = tplink.get_device_list() ...
             then [for device in devices] iterates [None] *)
          match get_device_list s with
          | (Err (RuntimeError m), s') => (Exit [ErrOut m] (-1), s')
          | (Err e, s') => (Uncaught [] e, s')
          | (Ok _, s') => (Uncaught [] TypeError, s')
          end
      | CDevice dc =>
          let missing := (Exit [ErrOut "Missing --device argument"] (-1), s) in
          match a_device args with
          | None => missing
          | Some dev =>
              if String.eqb dev "" then missing else
              match run_command dc dev s with
              | (Ok v, s') => (Exit [Out v] 0, s')
              | (Err (RuntimeError m), s') => (Exit [ErrOut m] (-1), s')
              | (Err e, s') => (Uncaught [] e, s')
              end
          end
      end
  end.

(** A computation that never raises [RuntimeError]. *)
Definition never_rt {A} (m : M A) : Prop :=
  forall s msg, fst (m s) <> Err (RuntimeError msg).

(** ** The query string as the spec words it

    "the parameters serialized as key=value pairs joined by '&' in map
    order, with no trailing '&' and with no percent-encoding". *)
Fixpoint spec_query (ps : list (string * string)) : string :=
  match ps with
  | [] => ""
  | [(k, v)] => k ++ "=" ++ v
  | (k, v) :: rest => k ++ "=" ++ v ++ "&" ++ spec_query rest
  end.

Definition str_params (ps : list (string * string)) : list (string * json) :=
  map (fun kv => (fst kv, JStr (snd kv))) ps.

(** What the loop of [form_url] appends, trailing ['&'] included. *)
Fixpoint amp_pairs (ps : list (string * string)) : string :=
  match ps with
  | [] => ""
  | (k, v) :: rest => k ++ "=" ++ v ++ "&" ++ amp_pairs rest
  end.

(** The fixed query parameters, as strings. *)
Definition base_params_str : list (string * string) :=
  [("appName", "Kasa_Android"); ("termID", "TermID");
   ("appVer", "1.4.4.607"); ("ospf", "Android+6.0.1");
   ("netType", "wifi"); ("locale", "es_ES")].

(** The wire URL of a passthrough request to a device served at [u], with
    session token [t]. *)
Definition device_url (u t : string) : string :=
  u ++ "?" ++ spec_query (base_params_str ++ [("token", t)]).

(** The wire URL of the login request: the cloud endpoint and the fixed
    query, without a token. *)
Definition login_url : string :=
  "https://wap.tplinkcloud.com" ++ "?" ++ spec_query base_params_str.

(** A successful server reply carrying [responseData = data]. *)
Definition ok_reply (raw : string) (data : json) : reply :=
  RBody raw (JObj [("error_code", JInt 0);
                   ("result", JObj [("responseData", data)])]).

(** A successful server reply, whatever else it carries: a JSON body with
    [error_code == 0] and a [result] dict holding a ['responseData'] key. *)
Definition success_reply (r : reply) : Prop :=
  exists raw parsed ec res data,
    r = RBody raw parsed /\ getitem parsed "error_code" = Ok ec /\
    py_eq_int ec 0 = true /\ getitem parsed "result" = Ok res /\
    getitem res "responseData" = Ok data.

(** A computation that leaves the client's attributes as they are,
    whatever it returns or raises. *)
Definition keeps {A} (m : M A) : Prop := forall s, cl (snd (m s)) = cl s.

(** Every entry of a device list is a dict with an ['alias'] key. *)
Definition valid_devices (l : list json) : Prop :=
  Forall (fun d => exists v, getitem d "alias" = Ok v) l.

(** ** Sample data: a client with two plugs, the second served by its own
    regional endpoint, and a second device also named ["Lamp"]. *)
Definition sample_lamp : json :=
  JObj [("alias", JStr "Lamp"); ("deviceId", JStr "D1");
        ("appServerUrl", JStr "https://x"); ("deviceName", JStr "Lamp Plug");
        ("status", JInt 1)].

Definition sample_fan : json :=
  JObj [("alias", JStr "Fan"); ("deviceId", JStr "D2");
        ("appServerUrl", JStr "https://eu.x"); ("deviceName", JStr "Fan Plug");
        ("status", JInt 0)].

Definition sample_lamp2 : json :=
  JObj [("alias", JStr "Lamp"); ("deviceId", JStr "D3");
        ("appServerUrl", JStr "https://y"); ("deviceName", JStr "Other Plug");
        ("status", JInt 1)].

Definition sample_state (devices : list json) (sc : list reply) : st :=
  mkSt (mkClient "u" "p" (JStr "T1") (JList devices)) [] sc.

(** A body whose [error_code] is non-zero: [{"error_code": 1}]. *)
Definition sample_error_body : string :=
  let dq := String (Ascii.ascii_of_nat 34) "" in
  "{" ++ dq ++ "error_code" ++ dq ++ ": 1}".

Definition sample_error_reply : reply :=
  RBody sample_error_body (JObj [("error_code", JInt 1)]).

Definition sample_token_reply : reply :=
  RBody "t" (JObj [("error_code", JInt 0); ("result", JObj [("token", JStr "T1")])]).

Definition sample_list_reply (devices : list json) : reply :=
  RBody "l" (JObj [("error_code", JInt 0);
                   ("result", JObj [("deviceList", JList devices)])]).

(** ** Facts about strings and dictionaries *)

Lemma append_assoc_str (a b c : string) : (a ++ b) ++ c = a ++ (b ++ c).
Proof. induction a as [|x a IH]; simpl; [reflexivity | now rewrite IH]. Qed.

Lemma append_empty_r (a : string) : a ++ "" = a.
Proof. induction a as [|x a IH]; simpl; [reflexivity | now rewrite IH]. Qed.

Lemma length_append_str (a b : string) :
  String.length (a ++ b) = String.length a + String.length b.
Proof. induction a as [|x a IH]; simpl; [reflexivity | now rewrite IH]. Qed.

Lemma substring_prefix (a b : string) : substring 0 (String.length a) (a ++ b) = a.
Proof.
  induction a as [|x a IH]; simpl.
  - now destruct b.
  - now rewrite IH.
Qed.

Lemma drop_last_snoc (a : string) (c : Ascii.ascii) :
  drop_last (a ++ String c "") = a.
Proof.
  unfold drop_last. rewrite length_append_str. simpl.
  replace (String.length a + 1 - 1)%nat with (String.length a) by lia.
  apply substring_prefix.
Qed.

Lemma assoc_str_params (ps : list (string * string)) (k v : string) :
  NoDup (map fst ps) -> In (k, v) ps -> assoc k (str_params ps) = Some (JStr v).
Proof.
  induction ps as [|[k' v'] ps IH]; simpl; [tauto|].
  intros Hnd Hin. inversion Hnd as [|? ? Hnotin Hnd']; subst.
  destruct Hin as [Heq | Hin].
  - inversion Heq; subst. now rewrite String.eqb_refl.
  - destruct (String.eqb_spec k k') as [->|Hne].
    + exfalso. apply Hnotin. change k' with (fst (k', v)). now apply in_map.
    + now apply IH.
Qed.

Lemma add_params_ok (params : list (string * json)) (sub : list (string * string))
    (acc : string) :
  (forall k v, In (k, v) sub -> assoc k params = Some (JStr v)) ->
  add_params params (map fst sub) acc = Ok (acc ++ amp_pairs sub).
Proof.
  revert acc. induction sub as [|[k v] sub IH]; intros acc H; simpl.
  - now rewrite append_empty_r.
  - rewrite (H k v (or_introl eq_refl)). rewrite IH.
    + now repeat progress (rewrite ?append_assoc_str; simpl).
    + intros k' v' Hin. apply H. now right.
Qed.

Lemma amp_pairs_nonempty (ps : list (string * string)) :
  ps <> [] -> amp_pairs ps = spec_query ps ++ "&".
Proof.
  induction ps as [|[k v] ps IH]; intros Hne; [congruence|].
  destruct ps as [|p ps'].
  - simpl. now rewrite !append_assoc_str.
  - change (amp_pairs ((k, v) :: p :: ps'))
      with (k ++ "=" ++ v ++ "&" ++ amp_pairs (p :: ps')).
    change (spec_query ((k, v) :: p :: ps'))
      with (k ++ "=" ++ v ++ "&" ++ spec_query (p :: ps')).
    rewrite IH by discriminate. now rewrite !append_assoc_str.
Qed.

Lemma form_url_str_params (request : json) (u : string) (ps : list (string * string)) :
  getitem request "url" = Ok (JStr u) ->
  getitem request "params" = Ok (JObj (str_params ps)) ->
  NoDup (map fst ps) ->
  form_url request = Ok (drop_last (u ++ "?" ++ amp_pairs ps)).
Proof.
  intros Hu Hp Hnd. unfold form_url. rewrite Hu, Hp. simpl.
  assert (Hk : map fst (str_params ps) = map fst ps).
  { unfold str_params. rewrite map_map. reflexivity. }
  rewrite Hk, add_params_ok.
  - now rewrite append_assoc_str.
  - intros k v Hin. now apply assoc_str_params.
Qed.

Lemma form_url_query_general (request : json) (u : string) (ps : list (string * string)) :
  getitem request "url" = Ok (JStr u) ->
  getitem request "params" = Ok (JObj (str_params ps)) ->
  NoDup (map fst ps) ->
  form_url request = Ok (match ps with [] => u | _ => u ++ "?" ++ spec_query ps end).
Proof.
  intros Hu Hp Hnd. rewrite (form_url_str_params request u ps Hu Hp Hnd).
  destruct ps as [|p ps'].
  - change (amp_pairs []) with "". rewrite (append_empty_r "?").
    now rewrite drop_last_snoc.
  - rewrite amp_pairs_nonempty by discriminate.
    set (Q := spec_query (p :: ps')).
    replace (u ++ "?" ++ Q ++ "&") with ((u ++ "?" ++ Q) ++ "&")
      by now rewrite !append_assoc_str.
    now rewrite drop_last_snoc.
Qed.

Lemma form_url_passthrough (u t : string) (did data : json) :
  form_url (passthrough_request (JStr u) (JStr t) did data) = Ok (device_url u t).
Proof.
  apply (form_url_query_general _ u (base_params_str ++ [("token", t)]));
    [reflexivity | reflexivity |].
  simpl. repeat constructor; simpl; intuition discriminate.
Qed.

(** ** Facts about the device lookup *)

Lemma py_eq_str_true (v : json) (a : string) : py_eq_str v a = true <-> v = JStr a.
Proof.
  destruct v; simpl; split; intros H; try discriminate.
  - apply String.eqb_eq in H. now subst.
  - inversion H. apply String.eqb_refl.
Qed.

Lemma scan_some (a : string) (l : list json) (d : json) :
  scan a l = Ok (Some d) -> In d l /\ getitem d "alias" = Ok (JStr a).
Proof.
  induction l as [|e l IH]; simpl; [discriminate|].
  destruct (getitem e "alias") as [v|err] eqn:E; [|discriminate].
  destruct (py_eq_str v a) eqn:Eq.
  - intros H. inversion H; subst. apply py_eq_str_true in Eq. subst. auto.
  - intros H. destruct (IH H). auto.
Qed.

Lemma scan_none (a : string) (l : list json) :
  Forall (fun d => exists v, getitem d "alias" = Ok v /\ py_eq_str v a = false) l ->
  scan a l = Ok None.
Proof.
  induction 1 as [|e l [v [Hv Hne]] _ IH]; simpl; [reflexivity|].
  now rewrite Hv, Hne.
Qed.

Lemma getitem_truthy (d : json) (k : string) (v : json) :
  getitem d k = Ok v -> truthy d = true.
Proof. destruct d as [| | | | |[|kv kvs]]; simpl; congruence. Qed.

Lemma get_device_at (s : st) (a : string) (l : list json) :
  device_list (cl s) = JList l -> get_device a s = (scan a l, s).
Proof.
  intros Hl. unfold get_device, bind, get_client. simpl. rewrite Hl.
  now destruct (scan a l).
Qed.

Lemma resolve_found (s : st) (a : string) (l : list json) (d : json) :
  device_list (cl s) = JList l -> scan a l = Ok (Some d) -> resolve a s = (Ok d, s).
Proof.
  intros Hl Hs. unfold resolve, bind. rewrite (get_device_at s a l Hl), Hs.
  destruct (scan_some a l d Hs) as [_ Ha].
  now rewrite (getitem_truthy d "alias" (JStr a) Ha).
Qed.

Lemma resolve_missing (s : st) (a : string) (l : list json) :
  device_list (cl s) = JList l -> scan a l = Ok None ->
  resolve a s = (Err (RuntimeError ("Cannot find device: " ++ a)), s).
Proof.
  intros Hl Hs. unfold resolve, bind. now rewrite (get_device_at s a l Hl), Hs.
Qed.

(** ** Facts about [send_request] *)

Lemma send_request_trace (request : json) (furl : string) (s : st) :
  form_url request = Ok furl ->
  trace (snd (send_request request s)) = (trace s ++ [Send furl request])%list /\
  cl (snd (send_request request s)) = cl s.
Proof.
  intros Hf. unfold send_request, bind, lift, emit, next_reply. rewrite Hf.
  simpl. destruct (script s) as [|r rest]; simpl; [auto|].
  destruct r as [raw parsed| | |]; simpl; auto.
  destruct (getitem parsed "error_code") as [ec|e]; simpl; auto.
  destruct (negb (py_eq_int ec 0)); simpl; auto.
  destruct (getitem parsed "result"); simpl; auto.
Qed.

Lemma send_request_success (request : json) (furl raw : string)
    (parsed ec res : json) (rest : list reply) (s : st) :
  form_url request = Ok furl -> script s = RBody raw parsed :: rest ->
  getitem parsed "error_code" = Ok ec -> py_eq_int ec 0 = true ->
  getitem parsed "result" = Ok res ->
  send_request request s =
    (Ok res, mkSt (cl s) (trace s ++ [Send furl request])%list rest).
Proof.
  intros Hf Hs Hec H0 Hres. unfold send_request, bind, lift, emit, next_reply.
  rewrite Hf. simpl. rewrite Hs, Hec. cbv beta iota delta [ret]. rewrite H0, Hres. reflexivity.
Qed.

(** ** Frame facts: which computations leave the client's attributes alone *)

Lemma keeps_ret {A} (a : A) : keeps (ret a).
Proof. intros s. reflexivity. Qed.

Lemma keeps_raise {A} (e : exc) : keeps (@raise A e).
Proof. intros s. reflexivity. Qed.

Lemma keeps_lift {A} (r : result A) : keeps (lift r).
Proof. destruct r; intros s; reflexivity. Qed.

Lemma keeps_get_client : keeps get_client.
Proof. intros s. reflexivity. Qed.

Lemma keeps_emit (ev : event) : keeps (emit ev).
Proof. intros s. reflexivity. Qed.

Lemma keeps_next_reply : keeps next_reply.
Proof. intros s. unfold next_reply. now destruct (script s). Qed.

Lemma keeps_bind {A B} (m : M A) (f : A -> M B) :
  keeps m -> (forall a, keeps (f a)) -> keeps (bind m f).
Proof.
  intros Hm Hf s. unfold bind. specialize (Hm s).
  destruct (m s) as [[a|e] s'] eqn:E; simpl in *.
  - now rewrite Hf.
  - exact Hm.
Qed.

Create HintDb keeps_db.
#[local] Hint Resolve keeps_ret keeps_raise keeps_lift keeps_get_client
  keeps_emit keeps_next_reply : keeps_db.

Ltac keeps_tac :=
  repeat first
    [ progress (auto with keeps_db)
    | apply keeps_bind; intros
    | progress intros
    | match goal with
      | |- keeps (match ?x with _ => _ end) => destruct x
      | |- keeps (if ?b then _ else _) => destruct b
      end ].

Lemma keeps_send_request (request : json) : keeps (send_request request).
Proof. unfold send_request. keeps_tac. Qed.

Lemma keeps_get_device (alias : string) : keeps (get_device alias).
Proof. unfold get_device. keeps_tac. Qed.

Lemma keeps_resolve (alias : string) : keeps (resolve alias).
Proof. unfold resolve. apply keeps_bind; [apply keeps_get_device|]. keeps_tac. Qed.

#[local] Hint Resolve keeps_send_request keeps_get_device keeps_resolve : keeps_db.

Lemma keeps_set_relay_state (alias : string) (state : Z) :
  keeps (set_relay_state alias state).
Proof. unfold set_relay_state. keeps_tac. Qed.

Lemma keeps_get_sys_info (alias : string) : keeps (get_sys_info alias).
Proof. unfold get_sys_info. keeps_tac. Qed.

#[local] Hint Resolve keeps_set_relay_state keeps_get_sys_info : keeps_db.

(** C10: every control operation ([set_relay_state], [turn_on], [turn_off],
    [powercycle], [get_sys_info], [is_on], [is_off]) leaves the client's
    attributes [username], [password], [token] and [device_list] exactly as
    they were, from every state, whether the call returns or raises. *)
Theorem control_ops_keep_client (alias : string) (state : Z) :
  keeps (set_relay_state alias state) /\ keeps (turn_on alias) /\
  keeps (turn_off alias) /\ keeps (powercycle alias) /\
  keeps (get_sys_info alias) /\ keeps (is_on alias) /\ keeps (is_off alias).
Proof.
  unfold turn_on, turn_off, powercycle, is_on, is_off.
  repeat split; keeps_tac.
Qed.

(** ** Monad facts *)

Lemma bind_ok {A B} (m : M A) (f : A -> M B) (s s' : st) (a : A) :
  m s = (Ok a, s') -> bind m f s = f a s'.
Proof. intros H. unfold bind. now rewrite H. Qed.

Lemma bind_err {A B} (m : M A) (f : A -> M B) (s s' : st) (e : exc) :
  m s = (Err e, s') -> bind m f s = (Err e, s').
Proof. intros H. unfold bind. now rewrite H. Qed.

Lemma scan_total (a : string) (l : list json) :
  valid_devices l -> exists o, scan a l = Ok o.
Proof.
  induction 1 as [|e l [v Hv] _ [o IH]]; simpl; [eauto|].
  rewrite Hv. destruct (py_eq_str v a); eauto.
Qed.

Lemma scan_none_inv (a : string) (l : list json) :
  scan a l = Ok None -> forall d, In d l -> getitem d "alias" <> Ok (JStr a).
Proof.
  induction l as [|e l IH]; simpl; [tauto|].
  destruct (getitem e "alias") as [v|err] eqn:E; [|discriminate].
  destruct (py_eq_str v a) eqn:Eq; [discriminate|].
  intros Hs d [<-|Hin].
  - rewrite E. intros H. inversion H; subst. simpl in Eq.
    now rewrite String.eqb_refl in Eq.
  - now apply IH.
Qed.

(** C2: on a device list whose entries all carry an ['alias'] key,
    [get_device alias] returns (without touching the state) a device of the
    list whose ['alias'] is exactly the string [alias] whenever one exists,
    and the distinct outcome [None] when no entry's ['alias'] is [alias].
    Matching is [String.eqb], so it is exact and case-sensitive. *)
Theorem get_device_exact (s : st) (alias : string) (l : list json) :
  device_list (cl s) = JList l -> valid_devices l ->
  ((exists d, In d l /\ getitem d "alias" = Ok (JStr alias)) ->
   exists d, get_device alias s = (Ok (Some d), s) /\ In d l /\
             getitem d "alias" = Ok (JStr alias)) /\
  ((forall d, In d l -> getitem d "alias" <> Ok (JStr alias)) ->
   get_device alias s = (Ok None, s)).
Proof.
  intros Hl Hv. rewrite (get_device_at s alias l Hl).
  destruct (scan_total alias l Hv) as [[d|] Hs]; rewrite Hs; split.
  - intros _. exists d. split; [reflexivity|]. now apply scan_some.
  - intros Hno. destruct (scan_some alias l d Hs) as [Hin Ha].
    exfalso. exact (Hno d Hin Ha).
  - intros [d [Hin Ha]]. exfalso. exact (scan_none_inv alias l Hs d Hin Ha).
  - reflexivity.
Qed.

Lemma get_device_exact_witness :
  device_list (cl (sample_state [sample_fan; sample_lamp] [])) =
    JList [sample_fan; sample_lamp] /\
  valid_devices [sample_fan; sample_lamp] /\
  get_device "Lamp" (sample_state [sample_fan; sample_lamp] []) =
    (Ok (Some sample_lamp), sample_state [sample_fan; sample_lamp] []) /\
  get_device "lamp" (sample_state [sample_fan; sample_lamp] []) =
    (Ok None, sample_state [sample_fan; sample_lamp] []).
Proof.
  assert (Hv : valid_devices [sample_fan; sample_lamp]).
  { repeat constructor; eexists; reflexivity. }
  destruct (get_device_exact (sample_state [sample_fan; sample_lamp] []) "lamp"
              [sample_fan; sample_lamp] eq_refl Hv) as [_ Hnone].
  split; [reflexivity|]. split; [exact Hv|]. split; [reflexivity|].
  apply Hnone. intros d Hin. simpl in Hin.
  destruct Hin as [<-|[<-|[]]]; discriminate.
Defined.

(** C9: when several devices share the alias, [get_device] returns the first
    of them in list order: with every entry before [d] carrying an ['alias']
    different from [alias], the result is [d], whatever follows it (later
    duplicates, or entries without an ['alias'] key, are never looked at). *)
Theorem get_device_first_match (s : st) (alias : string) (pre post : list json)
    (d : json) :
  device_list (cl s) = JList (pre ++ d :: post) ->
  Forall (fun e => exists v, getitem e "alias" = Ok v /\ py_eq_str v alias = false) pre ->
  getitem d "alias" = Ok (JStr alias) ->
  get_device alias s = (Ok (Some d), s).
Proof.
  intros Hl Hpre Hd. rewrite (get_device_at s alias _ Hl).
  f_equal. clear Hl.
  induction Hpre as [|e pre [v [Hv Hne]] _ IH]; simpl.
  - rewrite Hd. simpl. now rewrite String.eqb_refl.
  - rewrite Hv, Hne. exact IH.
Qed.

Lemma get_device_first_match_witness :
  get_device "Lamp" (sample_state [sample_fan; sample_lamp; sample_lamp2] []) =
    (Ok (Some sample_lamp), sample_state [sample_fan; sample_lamp; sample_lamp2] []).
Proof.
  apply (get_device_first_match _ "Lamp" [sample_fan] [sample_lamp2] sample_lamp).
  - reflexivity.
  - repeat constructor. exists (JStr "Fan"). split; reflexivity.
  - reflexivity.
Defined.

(** C3: when the cached device list has no entry whose ['alias'] is [alias]
    (every entry carrying an ['alias'] key), each control method raises the
    not-found error [RuntimeError("Cannot find device: " + alias)] and the
    final state is the initial one: in particular the trace is unchanged,
    so no request was put on the wire (and no reply consumed). *)
Theorem control_ops_missing_device (s : st) (alias : string) (l : list json)
    (state : Z) :
  device_list (cl s) = JList l ->
  Forall (fun d => exists v, getitem d "alias" = Ok v /\ py_eq_str v alias = false) l ->
  set_relay_state alias state s = (Err (RuntimeError ("Cannot find device: " ++ alias)), s) /\
  turn_on alias s = (Err (RuntimeError ("Cannot find device: " ++ alias)), s) /\
  turn_off alias s = (Err (RuntimeError ("Cannot find device: " ++ alias)), s) /\
  powercycle alias s = (Err (RuntimeError ("Cannot find device: " ++ alias)), s) /\
  get_sys_info alias s = (Err (RuntimeError ("Cannot find device: " ++ alias)), s) /\
  is_on alias s = (Err (RuntimeError ("Cannot find device: " ++ alias)), s) /\
  is_off alias s = (Err (RuntimeError ("Cannot find device: " ++ alias)), s).
Proof.
  intros Hl Hno.
  pose proof (resolve_missing s alias l Hl (scan_none alias l Hno)) as Hr.
  assert (Hset : forall st0, set_relay_state alias st0 s =
            (Err (RuntimeError ("Cannot find device: " ++ alias)), s)).
  { intros st0. unfold set_relay_state. exact (bind_err _ _ _ _ _ Hr). }
  assert (Hsys : get_sys_info alias s =
            (Err (RuntimeError ("Cannot find device: " ++ alias)), s)).
  { unfold get_sys_info. exact (bind_err _ _ _ _ _ Hr). }
  assert (Hon : is_on alias s =
            (Err (RuntimeError ("Cannot find device: " ++ alias)), s)).
  { unfold is_on. exact (bind_err _ _ _ _ _ Hsys). }
  repeat split.
  - apply Hset.
  - apply Hset.
  - apply Hset.
  - unfold powercycle. exact (bind_err _ _ _ _ _ (Hset 0%Z)).
  - exact Hsys.
  - exact Hon.
  - unfold is_off. exact (bind_err _ _ _ _ _ Hon).
Qed.

Lemma control_ops_missing_device_witness :
  device_list (cl (sample_state [sample_fan; sample_lamp] [])) =
    JList [sample_fan; sample_lamp] /\
  powercycle "Heater" (sample_state [sample_fan; sample_lamp] []) =
    (Err (RuntimeError "Cannot find device: Heater"),
     sample_state [sample_fan; sample_lamp] []).
Proof.
  split; [reflexivity|].
  destruct (control_ops_missing_device (sample_state [sample_fan; sample_lamp] [])
              "Heater" [sample_fan; sample_lamp] 1%Z eq_refl)
    as (_ & _ & _ & Hp & _).
  - repeat constructor.
    + exists (JStr "Fan"). split; reflexivity.
    + exists (JStr "Lamp"). split; reflexivity.
  - exact Hp.
Defined.

Lemma lift_ok {A} (r : result A) (a : A) (s : st) : r = Ok a -> lift r s = (Ok a, s).
Proof. intros ->. reflexivity. Qed.

Lemma ok_reply_success (raw : string) (data : json) : success_reply (ok_reply raw data).
Proof. do 5 eexists. repeat split; reflexivity. Qed.

(** ** Control operations on a device that the alias resolves to *)

Section FoundDevice.

Variables (c : client) (alias : string) (l : list json) (d : json)
  (u t : string) (did : json).

Hypothesis Hl : device_list c = JList l.
Hypothesis Hfound : scan alias l = Ok (Some d).
Hypothesis Hurl : getitem d "appServerUrl" = Ok (JStr u).
Hypothesis Hdid : getitem d "deviceId" = Ok did.
Hypothesis Htok : token c = JStr t.

Definition relay_request (state : Z) : json :=
  passthrough_request (JStr u) (JStr t) did (relay_state_data state).

Lemma set_relay_state_unfold (s : st) (state : Z) :
  cl s = c ->
  set_relay_state alias state s =
    bind (send_request (relay_request state))
         (fun result => lift (getitem result "responseData")) s.
Proof.
  intros Hc. unfold set_relay_state.
  rewrite (bind_ok _ _ s s d); [|apply (resolve_found s alias l); congruence].
  rewrite (bind_ok _ _ s s (cl s)) by reflexivity.
  rewrite (bind_ok _ _ s s (JStr u)) by (apply lift_ok; exact Hurl).
  rewrite (bind_ok _ _ s s did) by (apply lift_ok; exact Hdid).
  rewrite Hc, Htok. reflexivity.
Qed.

Lemma set_relay_state_trace (s : st) (state : Z) :
  cl s = c ->
  trace (snd (set_relay_state alias state s)) =
    (trace s ++ [Send (device_url u t) (relay_request state)])%list.
Proof.
  intros Hc. rewrite (set_relay_state_unfold s state Hc).
  destruct (send_request_trace (relay_request state) (device_url u t) s)
    as [Ht _]; [apply form_url_passthrough|].
  unfold bind. destruct (send_request (relay_request state) s) as [[r|e] s'].
  - simpl in *. destruct (getitem r "responseData"); exact Ht.
  - exact Ht.
Qed.

Lemma set_relay_state_success (s : st) (state : Z) (r : reply) (rest : list reply) :
  cl s = c -> script s = r :: rest -> success_reply r ->
  exists data,
    set_relay_state alias state s =
      (Ok data, mkSt c (trace s ++ [Send (device_url u t) (relay_request state)])%list rest).
Proof.
  intros Hc Hs (raw & parsed & ec & res & data & -> & Hec & H0 & Hres & Hdata).
  exists data. rewrite (set_relay_state_unfold s state Hc).
  rewrite (bind_ok _ _ s
             (mkSt c (trace s ++ [Send (device_url u t) (relay_request state)])%list rest)
             res).
  - apply lift_ok. exact Hdata.
  - rewrite <- Hc. apply (send_request_success _ _ raw parsed ec res rest s); auto.
    apply form_url_passthrough.
Qed.

(** C6: when [alias] resolves to the device [d], [set_relay_state alias state]
    puts exactly one request on the wire, addressed to [d]'s ['appServerUrl']
    [u] (the wire URL is [u], then ['?'] and the fixed query with the session
    token), never to the fixed cloud endpoint; the request's ['url'] is [u],
    its body has method ['passthrough'], ['deviceId'] the device's
    ['deviceId'] and ['requestData'] [{system: {set_relay_state: {state}}}].
    [turn_on] and [turn_off] are [set_relay_state] with [1] and [0]. *)
Theorem set_relay_state_passthrough (s : st) (state : Z) :
  cl s = c ->
  trace (snd (set_relay_state alias state s)) =
    (trace s ++ [Send (device_url u t) (relay_request state)])%list /\
  device_url u t = u ++ "?" ++ spec_query (base_params_str ++ [("token", t)]) /\
  getitem (relay_request state) "url" = Ok (JStr u) /\
  (exists data ps,
     getitem (relay_request state) "data" = Ok data /\
     getitem data "method" = Ok (JStr "passthrough") /\
     getitem data "params" = Ok ps /\
     getitem ps "deviceId" = Ok did /\
     getitem ps "requestData" =
       Ok (JObj [("system", JObj [("set_relay_state", JObj [("state", JInt state)])])])) /\
  turn_on alias = set_relay_state alias 1 /\
  turn_off alias = set_relay_state alias 0.
Proof.
  intros Hc. split; [exact (set_relay_state_trace s state Hc)|].
  split; [reflexivity|]. split; [reflexivity|].
  split; [|split; reflexivity].
  do 2 eexists. repeat split; reflexivity.
Qed.

(** C5: when [alias] resolves to a device and the server answers both
    requests with success envelopes of any content, [powercycle alias]
    returns ["Done"] after exactly three effects, in this order: the request
    with [state = 0], a [time.sleep(5)], the request with [state = 1]; the
    client is unchanged.  Moreover, whenever [powercycle] returns at all, it
    returns ["Done"]. *)
Theorem powercycle_two_requests (s : st) (r0 r1 : reply) (rest : list reply) :
  cl s = c -> script s = r0 :: r1 :: rest ->
  success_reply r0 -> success_reply r1 ->
  powercycle alias s =
    (Ok "Done",
     mkSt c (trace s ++ [Send (device_url u t) (relay_request 0); Sleep 5;
                         Send (device_url u t) (relay_request 1)])%list rest) /\
  (forall s0 x s1, powercycle alias s0 = (Ok x, s1) -> x = "Done").
Proof.
  intros Hc Hs H0 H1. split.
  - destruct (set_relay_state_success s 0 r0 (r1 :: rest) Hc Hs H0) as [d0 E0].
    unfold powercycle, turn_off, turn_on.
    rewrite (bind_ok _ _ _ _ _ E0).
    rewrite (bind_ok _ _ _
      (mkSt c ((trace s ++ [Send (device_url u t) (relay_request 0)]) ++ [Sleep 5])%list
            (r1 :: rest)) tt) by reflexivity.
    destruct (set_relay_state_success
                (mkSt c ((trace s ++ [Send (device_url u t) (relay_request 0)])
                           ++ [Sleep 5])%list (r1 :: rest))
                1 r1 rest eq_refl eq_refl H1) as [d1 E1].
    rewrite (bind_ok _ _ _ _ _ E1).
    unfold ret. cbn [trace]. now rewrite <- !app_assoc.
  - intros s0 x s1. unfold powercycle, bind.
    destruct (turn_off alias s0) as [[?|?] s2]; [|discriminate].
    destruct (emit (Sleep 5) s2) as [[?|?] s3]; [|discriminate].
    destruct (turn_on alias s3) as [[?|?] s4]; [|discriminate].
    unfold ret. congruence.
Qed.

End FoundDevice.

Lemma set_relay_state_passthrough_witness :
  trace (snd (set_relay_state "Fan" 1 (sample_state [sample_fan; sample_lamp] []))) =
    [Send (device_url "https://eu.x" "T1") (relay_request "https://eu.x" "T1" (JStr "D2") 1)].
Proof.
  destruct (set_relay_state_passthrough (cl (sample_state [sample_fan; sample_lamp] []))
              "Fan" [sample_fan; sample_lamp] sample_fan "https://eu.x" "T1" (JStr "D2")
              eq_refl eq_refl eq_refl eq_refl eq_refl
              (sample_state [sample_fan; sample_lamp] []) 1 eq_refl) as [H _].
  exact H.
Defined.

Lemma powercycle_two_requests_witness :
  powercycle "Fan" (sample_state [sample_fan; sample_lamp]
                      [ok_reply "a" (JStr "whatever"); ok_reply "b" JNull]) =
    (Ok "Done",
     mkSt (cl (sample_state [sample_fan; sample_lamp] []))
          [Send (device_url "https://eu.x" "T1") (relay_request "https://eu.x" "T1" (JStr "D2") 0);
           Sleep 5;
           Send (device_url "https://eu.x" "T1") (relay_request "https://eu.x" "T1" (JStr "D2") 1)]
          []).
Proof.
  destruct (powercycle_two_requests (cl (sample_state [sample_fan; sample_lamp] []))
              "Fan" [sample_fan; sample_lamp] sample_fan "https://eu.x" "T1" (JStr "D2")
              eq_refl eq_refl eq_refl eq_refl eq_refl
              (sample_state [sample_fan; sample_lamp]
                 [ok_reply "a" (JStr "whatever"); ok_reply "b" JNull])
              (ok_reply "a" (JStr "whatever")) (ok_reply "b" JNull) []
              eq_refl eq_refl (ok_reply_success _ _) (ok_reply_success _ _)) as [H _].
  exact H.
Defined.

(** C7: [is_on alias] returns [b] exactly when [get_sys_info alias] returns a
    dict whose [system.get_sysinfo.relay_state] is [v] and [b] is Python's
    [v == 1]; [is_off alias] returns [b] exactly when [is_on alias] returns
    [not b] against the same server, and raises exactly what [is_on] raises. *)
Theorem is_on_is_off_relay_state (alias : string) (s s' : st) (b : bool) :
  (is_on alias s = (Ok b, s') <->
   exists r sys info v,
     get_sys_info alias s = (Ok r, s') /\ getitem r "system" = Ok sys /\
     getitem sys "get_sysinfo" = Ok info /\ getitem info "relay_state" = Ok v /\
     b = py_eq_int v 1) /\
  (is_off alias s = (Ok b, s') <-> is_on alias s = (Ok (negb b), s')) /\
  (forall e, is_off alias s = (Err e, s') <-> is_on alias s = (Err e, s')).
Proof.
  split; [|split].
  - unfold is_on, bind, lift, ret, raise.
    destruct (get_sys_info alias s) as [[r|e] s1] eqn:E.
    + destruct (getitem r "system") as [sys|e1] eqn:E1;
      [destruct (getitem sys "get_sysinfo") as [info|e2] eqn:E2;
       [destruct (getitem info "relay_state") as [v|e3] eqn:E3|]|];
      split.
      * intros H. inversion H; subst. exists r, sys, info, v. auto.
      * intros (r' & sys' & info' & v' & H1 & H2 & H3 & H4 & ->). congruence.
      * discriminate.
      * intros (r' & sys' & info' & v' & H1 & H2 & H3 & H4 & _). congruence.
      * discriminate.
      * intros (r' & sys' & info' & v' & H1 & H2 & H3 & H4 & _). congruence.
      * discriminate.
      * intros (r' & sys' & info' & v' & H1 & H2 & H3 & H4 & _). congruence.
    + split; [discriminate|].
      intros (r' & sys' & info' & v' & H1 & _). congruence.
  - unfold is_off. unfold bind at 1.
    destruct (is_on alias s) as [[b'|e] s1]; unfold ret; split; intros H;
      inversion H; subst; try reflexivity.
    all: now rewrite ?Bool.negb_involutive.
  - intros e. unfold is_off. unfold bind at 1.
    destruct (is_on alias s) as [[b'|e'] s1]; unfold ret; split; intros H;
      inversion H; subst; reflexivity.
Qed.

(** C8, as the code has it: for a request whose ['url'] is the string [u]
    and whose ['params'] is a dict of string values [ps] (distinct keys, in
    insertion order), [form_url] returns [u + '?' + k1=v1&...&kn=vn] with no
    trailing ['&'] and no percent-encoding when [ps] is non-empty, and [u]
    alone (the ['?'] is dropped too) when [ps] is empty. *)
Theorem form_url_serialization (request : json) (u : string)
    (ps : list (string * string)) :
  getitem request "url" = Ok (JStr u) ->
  getitem request "params" = Ok (JObj (str_params ps)) ->
  NoDup (map fst ps) ->
  form_url request = Ok (match ps with [] => u | _ => u ++ "?" ++ spec_query ps end).
Proof. apply form_url_query_general. Qed.

Lemma form_url_serialization_witness :
  form_url (JObj [("url", JStr "https://x");
                  ("params", JObj [("a", JStr "1 2"); ("b", JStr "x&y")])]) =
    Ok "https://x?a=1 2&b=x&y".
Proof.
  apply (form_url_serialization _ "https://x" [("a", "1 2"); ("b", "x&y")]).
  - reflexivity.
  - reflexivity.
  - repeat constructor; simpl; intuition discriminate.
Defined.

(** C8 fails as stated: with an empty parameter map the result is the base
    URL without the ['?']. *)
Lemma form_url_empty_params_cex :
  form_url (JObj [("url", JStr "https://x"); ("params", JObj [])]) <>
    Ok ("https://x" ++ "?" ++ spec_query []).
Proof. vm_compute. discriminate. Qed.

Lemma get_device_list_cached (s : st) :
  truthy (device_list (cl s)) = true -> get_device_list s = (Ok (device_list (cl s)), s).
Proof. intros H. unfold get_device_list, bind, get_client. simpl. now rewrite H. Qed.

(** C4 (defect): the cache test is the truthiness of [self.device_list], so a
    fetched empty list counts as "no cache".  Constructing a client whose
    account has no device sends two requests (login, getDeviceList), and each
    later [get_device_list] sends one more. *)
Theorem empty_device_list_refetched :
  let sc := [sample_token_reply; sample_list_reply []; sample_list_reply [];
             sample_list_reply []] in
  let s0 := snd (construct "u" "p" sc) in
  fst (construct "u" "p" sc) = Ok tt /\
  device_list (cl s0) = JList [] /\
  length (trace s0) = 2%nat /\
  fst (get_device_list s0) = Ok (JList []) /\
  length (trace (snd (get_device_list s0))) = 3%nat /\
  length (trace (snd (get_device_list (snd (get_device_list s0))))) = 4%nat.
Proof. vm_compute. repeat split. Qed.

(** C1 (defect): on a reply with non-zero [error_code], [send_request]
    returns the dict [{'error': body}] instead of raising; each caller then
    indexes it and raises [KeyError] for ['token'], ['deviceList'] or
    ['responseData'], an exception that does not carry the body. *)
Theorem server_error_becomes_key_error :
  let sc := [sample_error_reply] in
  fst (send_request (login_request "u" "p") (mkSt (fresh_client "u" "p") [] sc)) =
    Ok (JObj [("error", JStr sample_error_body)]) /\
  fst (construct "u" "p" sc) = Err (KeyError "token") /\
  fst (get_device_list (mkSt (mkClient "u" "p" (JStr "T1") JNull) [] sc)) =
    Err (KeyError "deviceList") /\
  fst (set_relay_state "Lamp" 1 (sample_state [sample_lamp] sc)) =
    Err (KeyError "responseData") /\
  fst (turn_on "Lamp" (sample_state [sample_lamp] sc)) = Err (KeyError "responseData") /\
  fst (turn_off "Lamp" (sample_state [sample_lamp] sc)) = Err (KeyError "responseData") /\
  fst (powercycle "Lamp" (sample_state [sample_lamp] sc)) = Err (KeyError "responseData") /\
  fst (get_sys_info "Lamp" (sample_state [sample_lamp] sc)) = Err (KeyError "responseData") /\
  fst (is_on "Lamp" (sample_state [sample_lamp] sc)) = Err (KeyError "responseData") /\
  fst (is_off "Lamp" (sample_state [sample_lamp] sc)) = Err (KeyError "responseData").
Proof. vm_compute. repeat split. Qed.

(** ** Further properties of the transport layer *)








Lemma never_rt_ret {A} (a : A) : never_rt (ret a).
Proof. intros s msg. discriminate. Qed.

Lemma never_rt_get_client : never_rt get_client.
Proof. intros s msg. discriminate. Qed.

Lemma never_rt_put_client (c : client) : never_rt (put_client c).
Proof. intros s msg. discriminate. Qed.

Lemma never_rt_emit (ev : event) : never_rt (emit ev).
Proof. intros s msg. discriminate. Qed.

Lemma never_rt_next_reply : never_rt next_reply.
Proof. intros s msg. unfold next_reply. destruct (script s); discriminate. Qed.


Create HintDb rt_db.
#[local] Hint Resolve never_rt_ret never_rt_get_client never_rt_put_client
  never_rt_emit never_rt_next_reply : rt_db.





(** ** Construction and the device-list fetch *)

Ltac run_client :=
  cbv beta iota delta [bind ret raise lift get_client put_client emit next_reply
    send_request getitem assoc String.eqb py_eq_int Z.eqb negb truthy
    get_device_list fresh_client cl trace script username password token
    device_list Ascii.eqb Bool.eqb].

Lemma form_url_login (u p : string) : form_url (login_request u p) = Ok login_url.
Proof. vm_compute. reflexivity. Qed.

Lemma form_url_device_list (tok : string) :
  form_url (device_list_request (JStr tok)) =
    Ok (device_url "https://wap.tplinkcloud.com" tok).
Proof.
  apply (form_url_query_general _ _ (base_params_str ++ [("token", tok)]));
    [reflexivity | reflexivity |].
  simpl. repeat constructor; simpl; intuition discriminate.
Qed.

(** [TPLink(username, password)] against a server that accepts the login
    with token [tok] and then lists [devices] (possibly none) sends exactly
    two requests: the login to the cloud endpoint (no token in its URL, the
    credentials in its body) and [getDeviceList] with [token=tok]; the new
    client stores [tok] and caches [devices]. *)
Theorem construct_success (u p tok raw0 raw1 : string) (devices : list json)
    (rest : list reply) :
  construct u p
    (RBody raw0 (JObj [("error_code", JInt 0); ("result", JObj [("token", JStr tok)])])
     :: RBody raw1 (JObj [("error_code", JInt 0);
                          ("result", JObj [("deviceList", JList devices)])])
     :: rest) =
  (Ok tt,
   mkSt (mkClient u p (JStr tok) (JList devices))
        [Send login_url (login_request u p);
         Send (device_url "https://wap.tplinkcloud.com" tok) (device_list_request (JStr tok))]
        rest).
Proof.
  unfold construct, init_body. run_client.
  rewrite form_url_login. run_client.
  rewrite form_url_device_list. run_client. reflexivity.
Qed.

Lemma get_device_list_fetch_eq (s : st) (tok raw : string) (v : json)
    (rest : list reply) :
  truthy (device_list (cl s)) = false -> token (cl s) = JStr tok ->
  script s = RBody raw (JObj [("error_code", JInt 0);
                              ("result", JObj [("deviceList", v)])]) :: rest ->
  get_device_list s =
    (Ok v,
     mkSt (mkClient (username (cl s)) (password (cl s)) (JStr tok) v)
          (trace s ++ [Send (device_url "https://wap.tplinkcloud.com" tok)
                            (device_list_request (JStr tok))])%list
          rest).
Proof.
  intros Hf Ht Hs. destruct s as [[u p tk dl] tr sc]. simpl in *. subst.
  unfold get_device_list. cbv beta iota delta [bind get_client cl device_list].
  rewrite Hf. run_client.
  rewrite form_url_device_list. run_client. reflexivity.
Qed.

(** [get_device_list] with a falsy cache ([None] or an empty list) sends one
    [getDeviceList] request with the stored token and caches and returns the
    reply's [deviceList], whatever it is; with a truthy cache it returns the
    cache and changes nothing (no request, no reply consumed). *)
Theorem get_device_list_fetch_or_cache (s : st) (tok raw : string) (v : json)
    (rest : list reply) :
  (truthy (device_list (cl s)) = false -> token (cl s) = JStr tok ->
   script s = RBody raw (JObj [("error_code", JInt 0);
                               ("result", JObj [("deviceList", v)])]) :: rest ->
   get_device_list s =
     (Ok v,
      mkSt (mkClient (username (cl s)) (password (cl s)) (JStr tok) v)
           (trace s ++ [Send (device_url "https://wap.tplinkcloud.com" tok)
                             (device_list_request (JStr tok))])%list
           rest)) /\
  (truthy (device_list (cl s)) = true -> get_device_list s = (Ok (device_list (cl s)), s)).
Proof.
  split; [apply get_device_list_fetch_eq|apply get_device_list_cached].
Qed.

Lemma get_device_list_fetch_or_cache_witness :
  get_device_list (mkSt (mkClient "u" "p" (JStr "T1") (JList [])) []
                        [sample_list_reply [sample_lamp]]) =
    (Ok (JList [sample_lamp]),
     mkSt (mkClient "u" "p" (JStr "T1") (JList [sample_lamp]))
          [Send (device_url "https://wap.tplinkcloud.com" "T1") (device_list_request (JStr "T1"))]
          []) /\
  get_device_list (sample_state [sample_lamp] [sample_list_reply []]) =
    (Ok (JList [sample_lamp]), sample_state [sample_lamp] [sample_list_reply []]).
Proof.
  destruct (get_device_list_fetch_or_cache
              (mkSt (mkClient "u" "p" (JStr "T1") (JList [])) []
                    [sample_list_reply [sample_lamp]])
              "T1" "l" (JList [sample_lamp]) []) as [H1 _].
  destruct (get_device_list_fetch_or_cache (sample_state [sample_lamp] [sample_list_reply []])
              "T1" "l" (JList []) []) as [_ H2].
  split; [exact (H1 eq_refl eq_refl eq_refl) | exact (H2 eq_refl)].
Defined.

(** The scan of [get_device] stops at the first entry whose ['alias'] cannot
    be read: an entry without an ['alias'] key (or not a dict) placed before
    the device sought makes the lookup raise that error ([KeyError('alias')]),
    even when a later device carries the alias. *)
Theorem get_device_unreadable_alias (s : st) (alias : string)
    (pre post : list json) (e : json) (err : exc) :
  device_list (cl s) = JList (pre ++ e :: post) ->
  Forall (fun x => exists v, getitem x "alias" = Ok v /\ py_eq_str v alias = false) pre ->
  getitem e "alias" = Err err ->
  get_device alias s = (Err err, s).
Proof.
  intros Hl Hpre He. unfold get_device, bind, get_client. simpl. rewrite Hl.
  replace (scan alias (pre ++ e :: post)) with (@Err (option json) err); [reflexivity|].
  clear Hl. induction Hpre as [|x pre [v [Hv Hne]] _ IH]; simpl.
  - now rewrite He.
  - now rewrite Hv, Hne.
Qed.

Lemma get_device_unreadable_alias_witness :
  get_device "Lamp"
    (sample_state [sample_fan; JObj [("deviceId", JStr "D9")]; sample_lamp] []) =
    (Err (KeyError "alias"),
     sample_state [sample_fan; JObj [("deviceId", JStr "D9")]; sample_lamp] []).
Proof.
  apply (get_device_unreadable_alias _ "Lamp" [sample_fan] [sample_lamp]
           (JObj [("deviceId", JStr "D9")])).
  - reflexivity.
  - repeat constructor. exists (JStr "Fan"). split; reflexivity.
  - reflexivity.
Defined.

(** ** Control requests: what reaches the wire and when nothing does *)

Lemma set_relay_state_resolved (s : st) (alias : string) (l : list json)
    (d u did : json) (state : Z) :
  device_list (cl s) = JList l -> scan alias l = Ok (Some d) ->
  getitem d "appServerUrl" = Ok u -> getitem d "deviceId" = Ok did ->
  set_relay_state alias state s =
    bind (send_request (passthrough_request u (token (cl s)) did (relay_state_data state)))
         (fun result => lift (getitem result "responseData")) s.
Proof.
  intros Hl Hf Hu Hd. unfold set_relay_state.
  rewrite (bind_ok _ _ s s d) by (apply (resolve_found s alias l); assumption).
  rewrite (bind_ok _ _ s s (cl s)) by reflexivity.
  rewrite (bind_ok _ _ s s u) by (apply lift_ok; exact Hu).
  rewrite (bind_ok _ _ s s did) by (apply lift_ok; exact Hd).
  reflexivity.
Qed.

Lemma get_sys_info_resolved (s : st) (alias : string) (l : list json)
    (d u did : json) :
  device_list (cl s) = JList l -> scan alias l = Ok (Some d) ->
  getitem d "appServerUrl" = Ok u -> getitem d "deviceId" = Ok did ->
  get_sys_info alias s =
    bind (send_request (passthrough_request u (token (cl s)) did sysinfo_data))
         (fun result => lift (getitem result "responseData")) s.
Proof.
  intros Hl Hf Hu Hd. unfold get_sys_info.
  rewrite (bind_ok _ _ s s d) by (apply (resolve_found s alias l); assumption).
  rewrite (bind_ok _ _ s s (cl s)) by reflexivity.
  rewrite (bind_ok _ _ s s u) by (apply lift_ok; exact Hu).
  rewrite (bind_ok _ _ s s did) by (apply lift_ok; exact Hd).
  reflexivity.
Qed.

Lemma send_request_form_err (request : json) (e : exc) (s : st) :
  form_url request = Err e -> send_request request s = (Err e, s).
Proof. intros Hf. unfold send_request, bind, lift. now rewrite Hf. Qed.

Lemma form_url_passthrough_bad_token (u : string) (tok did data : json) :
  (forall t, tok <> JStr t) ->
  form_url (passthrough_request (JStr u) tok did data) = Err TypeError.
Proof.
  intros Ht. destruct tok; try reflexivity. exfalso. exact (Ht s eq_refl).
Qed.

(** [get_sys_info] on a device that its alias resolves to, with a str
    token [t], puts exactly one request on the wire: a [passthrough] to the
    device's ['appServerUrl'] [u] with ['requestData']
    [{system: {get_sysinfo: None}, emeter: {get_realtime: None}}]; on a
    success reply it returns the reply's [result.responseData]. *)
Theorem get_sys_info_request (s : st) (alias : string) (l : list json)
    (d did : json) (u t : string) :
  device_list (cl s) = JList l -> scan alias l = Ok (Some d) ->
  getitem d "appServerUrl" = Ok (JStr u) -> getitem d "deviceId" = Ok did ->
  token (cl s) = JStr t ->
  trace (snd (get_sys_info alias s)) =
    (trace s ++ [Send (device_url u t)
                      (passthrough_request (JStr u) (JStr t) did sysinfo_data)])%list /\
  (forall raw parsed ec res data rest,
     script s = RBody raw parsed :: rest ->
     getitem parsed "error_code" = Ok ec -> py_eq_int ec 0 = true ->
     getitem parsed "result" = Ok res -> getitem res "responseData" = Ok data ->
     get_sys_info alias s =
       (Ok data,
        mkSt (cl s) (trace s ++ [Send (device_url u t)
                                  (passthrough_request (JStr u) (JStr t) did sysinfo_data)])%list
             rest)).
Proof.
  intros Hl Hf Hu Hd Ht.
  rewrite (get_sys_info_resolved s alias l d (JStr u) did Hl Hf Hu Hd), Ht.
  split.
  - destruct (send_request_trace (passthrough_request (JStr u) (JStr t) did sysinfo_data)
                (device_url u t) s) as [Htr _]; [apply form_url_passthrough|].
    unfold bind.
    destruct (send_request (passthrough_request (JStr u) (JStr t) did sysinfo_data) s)
      as [[r|e] s'].
    + simpl in *. destruct (getitem r "responseData"); exact Htr.
    + exact Htr.
  - intros raw parsed ec res data rest Hs Hec H0 Hres Hdata.
    rewrite (bind_ok _ _ s
               (mkSt (cl s) (trace s ++ [Send (device_url u t)
                   (passthrough_request (JStr u) (JStr t) did sysinfo_data)])%list rest)
               res).
    + apply lift_ok. exact Hdata.
    + apply (send_request_success _ _ raw parsed ec res rest s); auto.
      apply form_url_passthrough.
Qed.

Lemma get_sys_info_request_witness :
  trace (snd (get_sys_info "Fan" (sample_state [sample_fan; sample_lamp] []))) =
    [Send (device_url "https://eu.x" "T1")
          (passthrough_request (JStr "https://eu.x") (JStr "T1") (JStr "D2") sysinfo_data)].
Proof.
  destruct (get_sys_info_request (sample_state [sample_fan; sample_lamp] []) "Fan"
              [sample_fan; sample_lamp] sample_fan (JStr "D2") "https://eu.x" "T1"
              eq_refl eq_refl eq_refl eq_refl eq_refl) as [H _].
  exact H.
Defined.

(** With a stored token that is not a str (e.g. [None]), [set_relay_state]
    and [get_sys_info] raise [TypeError] while forming the URL: nothing is
    sent and the state is unchanged. *)
Theorem control_requests_need_str_token (s : st) (alias : string) (l : list json)
    (d did : json) (u : string) (state : Z) :
  device_list (cl s) = JList l -> scan alias l = Ok (Some d) ->
  getitem d "appServerUrl" = Ok (JStr u) -> getitem d "deviceId" = Ok did ->
  (forall t, token (cl s) <> JStr t) ->
  set_relay_state alias state s = (Err TypeError, s) /\
  get_sys_info alias s = (Err TypeError, s).
Proof.
  intros Hl Hf Hu Hd Ht. split.
  - rewrite (set_relay_state_resolved s alias l d (JStr u) did state Hl Hf Hu Hd).
    apply bind_err, send_request_form_err, form_url_passthrough_bad_token, Ht.
  - rewrite (get_sys_info_resolved s alias l d (JStr u) did Hl Hf Hu Hd).
    apply bind_err, send_request_form_err, form_url_passthrough_bad_token, Ht.
Qed.

Lemma control_requests_need_str_token_witness :
  set_relay_state "Lamp" 1 (mkSt (mkClient "u" "p" JNull (JList [sample_lamp])) [] []) =
    (Err TypeError, mkSt (mkClient "u" "p" JNull (JList [sample_lamp])) [] []).
Proof.
  destruct (control_requests_need_str_token
              (mkSt (mkClient "u" "p" JNull (JList [sample_lamp])) [] []) "Lamp"
              [sample_lamp] sample_lamp (JStr "D1") "https://x" 1
              eq_refl eq_refl eq_refl eq_refl) as [H _].
  - intros t. discriminate.
  - exact H.
Defined.

(** A device record without ['appServerUrl'] (or, having one, without
    ['deviceId']) makes [set_relay_state] and [get_sys_info] raise the
    [KeyError] before anything is sent; the state is unchanged. *)
Theorem control_requests_missing_field (s : st) (alias : string) (l : list json)
    (d : json) (key : string) (state : Z) :
  device_list (cl s) = JList l -> scan alias l = Ok (Some d) ->
  (getitem d "appServerUrl" = Err (KeyError key) \/
   (exists u, getitem d "appServerUrl" = Ok u /\ getitem d "deviceId" = Err (KeyError key))) ->
  set_relay_state alias state s = (Err (KeyError key), s) /\
  get_sys_info alias s = (Err (KeyError key), s).
Proof.
  intros Hl Hf Hk.
  pose proof (resolve_found s alias l d Hl Hf) as Hr.
  unfold set_relay_state, get_sys_info.
  split;
    rewrite (bind_ok _ _ s s d Hr), (bind_ok get_client _ s s (cl s) eq_refl);
    destruct Hk as [Hu | (u & Hu & Hd)];
    try (apply bind_err; unfold lift; now rewrite Hu);
    rewrite (bind_ok _ _ s s u (lift_ok _ _ s Hu));
    apply bind_err; unfold lift; now rewrite Hd.
Qed.

Lemma control_requests_missing_field_witness :
  get_sys_info "Lamp"
    (sample_state [JObj [("alias", JStr "Lamp"); ("deviceId", JStr "D1")]] []) =
    (Err (KeyError "appServerUrl"),
     sample_state [JObj [("alias", JStr "Lamp"); ("deviceId", JStr "D1")]] []).
Proof.
  destruct (control_requests_missing_field
              (sample_state [JObj [("alias", JStr "Lamp"); ("deviceId", JStr "D1")]] [])
              "Lamp" [JObj [("alias", JStr "Lamp"); ("deviceId", JStr "D1")]]
              (JObj [("alias", JStr "Lamp"); ("deviceId", JStr "D1")]) "appServerUrl" 0
              eq_refl eq_refl (or_introl eq_refl)) as [_ H].
  exact H.
Defined.

Lemma send_request_transport_fail (request : json) (furl : string) (rest : list reply)
    (s : st) :
  form_url request = Ok furl -> script s = RFail :: rest ->
  send_request request s =
    (Err URLError, mkSt (cl s) (trace s ++ [Send furl request])%list rest).
Proof.
  intros Hf Hs. unfold send_request, bind, lift, emit, next_reply. rewrite Hf.
  simpl. now rewrite Hs.
Qed.

(** [powercycle] is not atomic: when the state=0 request succeeds and the
    state=1 request fails in transport, the error propagates after the
    state=0 request and the five-second sleep have both happened, leaving
    the device switched off. *)
Theorem powercycle_not_atomic (s : st) (alias : string) (l : list json)
    (d did : json) (u t : string) (r0 : reply) (rest : list reply) :
  device_list (cl s) = JList l -> scan alias l = Ok (Some d) ->
  getitem d "appServerUrl" = Ok (JStr u) -> getitem d "deviceId" = Ok did ->
  token (cl s) = JStr t ->
  script s = r0 :: RFail :: rest -> success_reply r0 ->
  powercycle alias s =
    (Err URLError,
     mkSt (cl s) (trace s ++ [Send (device_url u t) (relay_request u t did 0); Sleep 5;
                              Send (device_url u t) (relay_request u t did 1)])%list rest).
Proof.
  intros Hl Hf Hu Hd Ht Hs H0.
  destruct (set_relay_state_success (cl s) alias l d u t did Hl Hf Hu Hd Ht
              s 0 r0 (RFail :: rest) eq_refl Hs H0) as [d0 E0].
  unfold powercycle, turn_off, turn_on.
  rewrite (bind_ok _ _ _ _ _ E0).
  rewrite (bind_ok (emit (Sleep 5)) _ _
    (mkSt (cl s) ((trace s ++ [Send (device_url u t) (relay_request u t did 0)])
                    ++ [Sleep 5])%list (RFail :: rest)) tt) by reflexivity.
  rewrite (bind_err _ _
    (mkSt (cl s) ((trace s ++ [Send (device_url u t) (relay_request u t did 0)])
                    ++ [Sleep 5])%list (RFail :: rest))
    (mkSt (cl s) (((trace s ++ [Send (device_url u t) (relay_request u t did 0)])
                     ++ [Sleep 5]) ++ [Send (device_url u t) (relay_request u t did 1)])%list
          rest) URLError).
  - now rewrite <- !app_assoc.
  - rewrite (set_relay_state_unfold (cl s) alias l d u t did Hl Hf Hu Hd Ht
               (mkSt (cl s) ((trace s ++ [Send (device_url u t) (relay_request u t did 0)])
                               ++ [Sleep 5])%list (RFail :: rest)) 1 eq_refl).
    apply bind_err.
    refine (send_request_transport_fail (relay_request u t did 1) (device_url u t) rest _
              (form_url_passthrough u t did (relay_state_data 1)) _).
    reflexivity.
Qed.

Lemma powercycle_not_atomic_witness :
  powercycle "Lamp" (sample_state [sample_lamp] [ok_reply "a" JNull; RFail]) =
    (Err URLError,
     mkSt (cl (sample_state [sample_lamp] []))
          [Send (device_url "https://x" "T1") (relay_request "https://x" "T1" (JStr "D1") 0);
           Sleep 5;
           Send (device_url "https://x" "T1") (relay_request "https://x" "T1" (JStr "D1") 1)]
          []).
Proof.
  exact (powercycle_not_atomic (sample_state [sample_lamp] [ok_reply "a" JNull; RFail])
           "Lamp" [sample_lamp] sample_lamp (JStr "D1") "https://x" "T1"
           (ok_reply "a" JNull) [] eq_refl eq_refl eq_refl eq_refl eq_refl eq_refl
           (ok_reply_success _ _)).
Defined.

(** ** The command-line driver *)



Lemma run_command_resolve_err (dc : device_command) (dev : string) (s s' : st) (e : exc) :
  resolve dev s = (Err e, s') -> run_command dc dev s = (Err e, s').
Proof.
  intros Hr.
  assert (Hset : forall k, set_relay_state dev k s = (Err e, s'))
    by (intros k; unfold set_relay_state; exact (bind_err _ _ _ _ _ Hr)).
  assert (Hsys : get_sys_info dev s = (Err e, s'))
    by (unfold get_sys_info; exact (bind_err _ _ _ _ _ Hr)).
  assert (Hon : is_on dev s = (Err e, s'))
    by (unfold is_on; exact (bind_err _ _ _ _ _ Hsys)).
  destruct dc; unfold run_command, turn_on, turn_off.
  - apply Hset.
  - apply Hset.
  - apply bind_err. unfold powercycle, turn_off. exact (bind_err _ _ _ _ _ (Hset 0%Z)).
  - exact Hsys.
  - exact (bind_err _ _ _ _ _ Hon).
  - apply bind_err. unfold is_off. exact (bind_err _ _ _ _ _ Hon).
Qed.

(** A device command without [--device] (absent or empty) prints
    ["Missing --device argument"] to stderr and exits with [-1] right after
    construction: no request beyond the constructor's is sent. *)
Theorem main_missing_device (args : cli_args) (sc : list reply) (dc : device_command) :
  a_command args = CDevice dc ->
  a_device args = None \/ a_device args = Some "" ->
  fst (construct (a_username args) (a_password args) sc) = Ok tt ->
  main_run args sc =
    (Exit [ErrOut "Missing --device argument"] (-1),
     snd (construct (a_username args) (a_password args) sc)).
Proof.
  intros Hc Hd Hok. unfold main_run. rewrite Hc.
  destruct (construct (a_username args) (a_password args) sc) as [[u|e] s];
    simpl in Hok; [|discriminate].
  destruct Hd as [-> | ->]; reflexivity.
Qed.

Lemma main_missing_device_witness :
  main_run (mkArgs (CDevice CTurnOn) None "u" "p" None)
           [sample_token_reply; sample_list_reply [sample_lamp]] =
    (Exit [ErrOut "Missing --device argument"] (-1),
     snd (construct "u" "p" [sample_token_reply; sample_list_reply [sample_lamp]])).
Proof.
  apply (main_missing_device (mkArgs (CDevice CTurnOn) None "u" "p" None) _ CTurnOn);
    [reflexivity | left; reflexivity | reflexivity].
Defined.

(** A device command naming a device absent from the cached list prints
    ["Cannot find device: " + name] to stderr and exits with [-1]; after the
    constructor's requests nothing more is sent. *)
Theorem main_unknown_device (args : cli_args) (sc : list reply) (dc : device_command)
    (dev : string) (l : list json) :
  a_command args = CDevice dc -> a_device args = Some dev -> dev <> "" ->
  fst (construct (a_username args) (a_password args) sc) = Ok tt ->
  device_list (cl (snd (construct (a_username args) (a_password args) sc))) = JList l ->
  Forall (fun d => exists v, getitem d "alias" = Ok v /\ py_eq_str v dev = false) l ->
  main_run args sc =
    (Exit [ErrOut ("Cannot find device: " ++ dev)] (-1),
     snd (construct (a_username args) (a_password args) sc)).
Proof.
  intros Hc Hd Hne Hok Hl Hno. unfold main_run. rewrite Hc, Hd.
  destruct (construct (a_username args) (a_password args) sc) as [[u|e] s];
    simpl in Hok, Hl; [|discriminate].
  destruct (String.eqb_spec dev "") as [Heq|_]; [contradiction|].
  rewrite (run_command_resolve_err dc dev s s _
             (resolve_missing s dev l Hl (scan_none dev l Hno))).
  reflexivity.
Qed.

Lemma main_unknown_device_witness :
  main_run (mkArgs (CDevice CIsOn) (Some "Heater") "u" "p" None)
           [sample_token_reply; sample_list_reply [sample_lamp]] =
    (Exit [ErrOut "Cannot find device: Heater"] (-1),
     snd (construct "u" "p" [sample_token_reply; sample_list_reply [sample_lamp]])).
Proof.
  apply (main_unknown_device (mkArgs (CDevice CIsOn) (Some "Heater") "u" "p" None) _
           CIsOn "Heater" [sample_lamp]); try reflexivity.
  - discriminate.
  - repeat constructor. exists (JStr "Lamp"). split; reflexivity.
Defined.
